(** * Buildbot web data module: the [Build] data class and the result helpers

    A shallow embedding of
    [www/react-data-module/src/data/classes/Build.ts] and of the result
    helpers that follow it in the same source file ([SUCCESS] .. [UNKNOWN],
    [intToResult], [intToColor], [getBuildOrStepResults], [results2class],
    [results2text]), with [BuildDescriptor] and its [parse].

    Modelling choices.
    - JavaScript values are the type [value]; a number is an integer ([Z]):
      identifiers, epoch timestamps and result codes are integers on the
      wire.  (A fraction, NaN or an infinity is no key of the label table
      and compares with [0] as some integer does.)
    - A plain object is the list of its own properties in creation order
      ([object]); reading a property that is absent yields [VUndefined].
    - Objects that are shared by reference (the [properties] map) live in a
      [heap]; a reference is an index into it and [{}] allocates.
    - [Build.update] assigns the twelve tracked fields of [this] one after
      the other; it is written with explicit state passing.
    - The result helpers take [Build | Step | null].  They are defined over
      an interface ([BuildOrStep]) that reads the three observed fields at
      their declared types, widened by [null] and [undefined] ([loose]);
      a [Build] whose three fields hold such values ([TypedBuild]) is an
      instance.
    - To say what [getBuildOrStepResults] reads and leaves alone, the
      function is also written as a computation on the heap
      ([call_getBuildOrStepResults]): the entity is a whole object behind
      a reference, and the heap is all the state there is. *)

From Stdlib Require Import ZArith Bool.
From stdpp Require Import base tactics option list strings gmap.

Local Open Scope Z_scope.
Local Open Scope string_scope.

(** ** JavaScript values, objects and the heap *)

(** A reference: the index of an object in the heap. *)
Abbreviation loc := nat.

Inductive value : Type :=
  | VUndefined
  | VNull
  | VBoolean (b : bool)
  | VNumber (n : Z)
  | VString (s : string)
  | VObject (l : loc).

#[global] Instance value_eq_dec : EqDecision value.
Proof. solve_decision. Defined.

(** Own properties of a plain object, in creation order. *)
Abbreviation object := (list (string * value)).

(** The heap: the objects created so far; a reference is an index. *)
Abbreviation heap := (list object).

Definition keys (o : object) : list string := map fst o.

(** [o.k]: the value of the first (only) property named [k], [undefined]
    when there is none. *)
Fixpoint get (o : object) (k : string) : value :=
  match o with
  | [] => VUndefined
  | (k', v) :: o' => if String.eqb k' k then v else get o' k
  end.

(** [k in o] for an object without inherited properties of that name. *)
Definition has_key (o : object) (k : string) : bool :=
  existsb (String.eqb k) (keys o).

(** [v === w] *)
Definition strict_eq (v w : value) : bool := bool_decide (v = w).

(** [v == null], the test that [??] performs. *)
Definition is_nullish (v : value) : bool :=
  match v with
  | VUndefined | VNull => true
  | _ => false
  end.

(** The object literal [{}]: a fresh empty object. *)
Definition new_object (h : heap) : value * heap :=
  (VObject (length h), (h ++ [[]])%list).

(** [v ?? {}]: the right operand is evaluated (and the object created)
    only when [v] is [null] or [undefined]. *)
Definition coalesce_new_object (v : value) (h : heap) : value * heap :=
  if is_nullish v then new_object h else (v, h).

(** ** The Build class *)

Record Build : Type := mkBuild {
  buildid : value;
  number : value;
  builderid : value;
  buildrequestid : value;
  workerid : value;
  masterid : value;
  started_at : value;
  complete_at : value;
  complete : value;
  state_string : value;
  results : value;
  properties : value
}.

(** Field assignments [this.f = v]. *)
Definition set_buildid (v : value) (this : Build) : Build :=
  mkBuild v (number this) (builderid this) (buildrequestid this)
    (workerid this) (masterid this) (started_at this) (complete_at this)
    (complete this) (state_string this) (results this) (properties this).
Definition set_number (v : value) (this : Build) : Build :=
  mkBuild (buildid this) v (builderid this) (buildrequestid this)
    (workerid this) (masterid this) (started_at this) (complete_at this)
    (complete this) (state_string this) (results this) (properties this).
Definition set_builderid (v : value) (this : Build) : Build :=
  mkBuild (buildid this) (number this) v (buildrequestid this)
    (workerid this) (masterid this) (started_at this) (complete_at this)
    (complete this) (state_string this) (results this) (properties this).
Definition set_buildrequestid (v : value) (this : Build) : Build :=
  mkBuild (buildid this) (number this) (builderid this) v
    (workerid this) (masterid this) (started_at this) (complete_at this)
    (complete this) (state_string this) (results this) (properties this).
Definition set_workerid (v : value) (this : Build) : Build :=
  mkBuild (buildid this) (number this) (builderid this) (buildrequestid this)
    v (masterid this) (started_at this) (complete_at this)
    (complete this) (state_string this) (results this) (properties this).
Definition set_masterid (v : value) (this : Build) : Build :=
  mkBuild (buildid this) (number this) (builderid this) (buildrequestid this)
    (workerid this) v (started_at this) (complete_at this)
    (complete this) (state_string this) (results this) (properties this).
Definition set_started_at (v : value) (this : Build) : Build :=
  mkBuild (buildid this) (number this) (builderid this) (buildrequestid this)
    (workerid this) (masterid this) v (complete_at this)
    (complete this) (state_string this) (results this) (properties this).
Definition set_complete_at (v : value) (this : Build) : Build :=
  mkBuild (buildid this) (number this) (builderid this) (buildrequestid this)
    (workerid this) (masterid this) (started_at this) v
    (complete this) (state_string this) (results this) (properties this).
Definition set_complete (v : value) (this : Build) : Build :=
  mkBuild (buildid this) (number this) (builderid this) (buildrequestid this)
    (workerid this) (masterid this) (started_at this) (complete_at this)
    v (state_string this) (results this) (properties this).
Definition set_state_string (v : value) (this : Build) : Build :=
  mkBuild (buildid this) (number this) (builderid this) (buildrequestid this)
    (workerid this) (masterid this) (started_at this) (complete_at this)
    (complete this) v (results this) (properties this).
Definition set_results (v : value) (this : Build) : Build :=
  mkBuild (buildid this) (number this) (builderid this) (buildrequestid this)
    (workerid this) (masterid this) (started_at this) (complete_at this)
    (complete this) (state_string this) v (properties this).
Definition set_properties (v : value) (this : Build) : Build :=
  mkBuild (buildid this) (number this) (builderid this) (buildrequestid this)
    (workerid this) (masterid this) (started_at this) (complete_at this)
    (complete this) (state_string this) (results this) v.

(** [Build.update(object)]: the statements of the method, in source order.
    The instance and the heap are passed along. *)
Definition update (obj : object) (this : Build) (h : heap) : Build * heap :=
  let this := set_buildid (get obj "buildid") this in
  let this := set_number (get obj "number") this in
  let this := set_builderid (get obj "builderid") this in
  let this := set_buildrequestid (get obj "buildrequestid") this in
  let this := set_workerid (get obj "workerid") this in
  let this := set_masterid (get obj "masterid") this in
  let this := set_started_at (get obj "started_at") this in
  let this := set_complete_at (get obj "complete_at") this in
  let this := set_complete (get obj "complete") this in
  let this := set_results (get obj "results") this in
  let this := set_state_string (get obj "state_string") this in
  let '(p, h) := coalesce_new_object (get obj "properties") h in
  (set_properties p this, h).

(** The instance as the constructor finds it once [super(...)] has returned:
    none of the declared fields is assigned yet. *)
Definition unassigned : Build :=
  mkBuild VUndefined VUndefined VUndefined VUndefined VUndefined VUndefined
    VUndefined VUndefined VUndefined VUndefined VUndefined VUndefined.

(** [new Build(accessor, endpoint, object)], as far as the tracked fields go:
    the constructor body is [this.update(object)]. *)
Definition construct (obj : object) (h : heap) : Build * heap :=
  update obj unassigned h.

(** [Build.toObject()]: the object literal of the method, keys in source
    order. *)
Definition toObject (this : Build) : object :=
  [ ("buildid", buildid this);
    ("number", number this);
    ("builderid", builderid this);
    ("buildrequestid", buildrequestid this);
    ("workerid", workerid this);
    ("masterid", masterid this);
    ("started_at", started_at this);
    ("complete_at", complete_at this);
    ("complete", complete this);
    ("state_string", state_string this);
    ("results", results this);
    ("properties", properties this) ].

(** The twelve tracked fields, in the key order of [toObject]. *)
Definition tracked_fields : list string :=
  [ "buildid"; "number"; "builderid"; "buildrequestid"; "workerid";
    "masterid"; "started_at"; "complete_at"; "complete"; "state_string";
    "results"; "properties" ].

(** ** Deep equality of plain data *)

(** Both objects have the same set of own keys. *)
Definition same_keys (o1 o2 : object) : bool :=
  forallb (has_key o2) (keys o1) && forallb (has_key o1) (keys o2).

(** Same keys, and under every key values that [eqv] accepts. *)
Definition objects_equal (eqv : value → value → bool) (o1 o2 : object) : bool :=
  same_keys o1 o2 && forallb (λ k, eqv (get o1 k) (get o2 k)) (keys o1).

(** Deep equality of two values in heap [h]: primitives are compared with
    [===]; two references are equal when they are the same reference or,
    following them at most [fuel] levels down, when they lead to objects
    with the same keys and deep-equal values. *)
Fixpoint deep_equal (fuel : nat) (h : heap) (v w : value) : bool :=
  match v, w with
  | VObject l1, VObject l2 =>
      Nat.eqb l1 l2 ||
      match fuel with
      | O => false
      | S n =>
          match h !! l1, h !! l2 with
          | Some o1, Some o2 => objects_equal (deep_equal n h) o1 o2
          | _, _ => false
          end
      end
  | _, _ => strict_eq v w
  end.

(** Deep equality of two records that are at hand (not behind a reference). *)
Definition deep_equal_object (fuel : nat) (h : heap) (o1 o2 : object) : bool :=
  objects_equal (deep_equal fuel h) o1 o2.

(** ** The input record shape *)

Definition is_number (v : value) : bool :=
  match v with VNumber _ => true | _ => false end.
Definition is_number_or_null (v : value) : bool :=
  match v with VNumber _ | VNull => true | _ => false end.
Definition is_boolean (v : value) : bool :=
  match v with VBoolean _ => true | _ => false end.
Definition is_string (v : value) : bool :=
  match v with VString _ => true | _ => false end.
Definition is_object (h : heap) (v : value) : bool :=
  match v with VObject l => bool_decide (is_Some (h !! l)) | _ => false end.

(** The raw record that [Build.update] consumes:
    [{buildid:number, number:number, builderid:number,
      buildrequestid:number|null, workerid:number, masterid:number,
      started_at:number, complete_at:number|null, complete:boolean,
      state_string:string, results:number|null, properties?:object}],
    with no key twice and no key besides these. *)
Definition well_formed (h : heap) (o : object) : bool :=
  bool_decide (NoDup (keys o))
  && forallb (λ k, bool_decide (k ∈ tracked_fields)) (keys o)
  && is_number (get o "buildid")
  && is_number (get o "number")
  && is_number (get o "builderid")
  && is_number_or_null (get o "buildrequestid")
  && is_number (get o "workerid")
  && is_number (get o "masterid")
  && is_number (get o "started_at")
  && is_number_or_null (get o "complete_at")
  && is_boolean (get o "complete")
  && is_string (get o "state_string")
  && is_number_or_null (get o "results")
  && (negb (has_key o "properties") || is_object h (get o "properties")).

(** The invariant of the data model on the three fields it relates:
    [complete_at] is non-null only when [complete] is true, and so is
    [results]. *)
Definition completion_invariant (complete_at complete results : value) : Prop :=
  (complete_at ≠ VNull → complete = VBoolean true) ∧
  (results ≠ VNull → complete = VBoolean true).

Definition Build_invariant (b : Build) : Prop :=
  completion_invariant (complete_at b) (complete b) (results b).

(** Two instances hold the same tracked-field state: every field is
    deep-equal in [h]. *)
Definition same_state (fuel : nat) (h : heap) (b1 b2 : Build) : bool :=
  deep_equal_object fuel h (toObject b1) (toObject b2).

(** ** Result codes *)

Definition SUCCESS : Z := 0.
Definition WARNINGS : Z := 1.
Definition FAILURE : Z := 2.
Definition SKIPPED : Z := 3.
Definition EXCEPTION : Z := 4.
Definition RETRY : Z := 5.
Definition CANCELLED : Z := 6.
(** Not returned by the API *)
Definition PENDING : Z := 1000.
Definition UNKNOWN : Z := 1001.

Definition intToResult : gmap Z string :=
  list_to_map
    [ (SUCCESS, "SUCCESS");
      (WARNINGS, "WARNINGS");
      (FAILURE, "FAILURE");
      (SKIPPED, "SKIPPED");
      (EXCEPTION, "EXCEPTION");
      (RETRY, "RETRY");
      (CANCELLED, "CANCELLED");
      (PENDING, "PENDING");
      (UNKNOWN, "UNKNOWN") ].

(** The nine labels. *)
Definition labels : list string :=
  [ "SUCCESS"; "WARNINGS"; "FAILURE"; "SKIPPED"; "EXCEPTION"; "RETRY";
    "CANCELLED"; "PENDING"; "UNKNOWN" ].

(** ** Entities with results *)

(** What a field declared with type [A] holds at run time: a value of the
    type, [null], or [undefined] (the field was missing from the record the
    entity was built from). *)
Inductive loose (A : Type) : Type :=
  | Undefined
  | Null
  | Val (a : A).
Arguments Undefined {A}.
Arguments Null {A}.
Arguments Val {A} a.

(** [Build | Step | Buildrequest]: [results: number|null]. *)
Class HasResults (E : Type) := results_of : E → loose Z.

(** [Build | Step]: besides, [complete: boolean] and
    [started_at: number] ([number|null] for a step). *)
Class BuildOrStep (E : Type) := {
  BuildOrStep_results :: HasResults E;
  complete_of : E → loose bool;
  started_at_of : E → loose Z
}.

(** [x !== null] *)
Definition strict_ne_null {A : Type} (x : loose A) : bool :=
  match x with Null => false | Undefined | Val _ => true end.

(** [x in intToResult]: the operand is converted to a property key; a
    number is a key of the table when the table has an entry for it, and
    the keys that [undefined] and [null] convert to are none. *)
Definition in_intToResult (x : loose Z) : bool :=
  match x with
  | Val n => bool_decide (is_Some (intToResult !! n))
  | Undefined | Null => false
  end.

(** [x !== null && x in intToResult], with the number that [x] then is. *)
Definition recognized (x : loose Z) : option Z :=
  if strict_ne_null x && in_intToResult x
  then match x with Val n => Some n | Undefined | Null => None end
  else None.

(** [x === false] *)
Definition is_false (x : loose bool) : bool :=
  match x with Val false => true | _ => false end.

(** [x ?? d] *)
Definition coalesce {A : Type} (x : loose A) (d : A) : A :=
  match x with Val a => a | Undefined | Null => d end.

Section Results.
Context {E : Type}.

(** [getBuildOrStepResults(buildOrStep, unknownResults)]; a null entity is
    [None]. *)
Definition getBuildOrStepResults `{!BuildOrStep E}
    (buildOrStep : option E) (unknownResults : Z) : Z :=
  match buildOrStep with
  | None => unknownResults
  | Some e =>
      match recognized (results_of e) with
      | Some r => r
      | None =>
          if is_false (complete_of e)
             && (coalesce (started_at_of e) 0 >? 0)%Z
          then PENDING
          else unknownResults
      end
  end.

(** The template literal [`results_${intToResult[results]}`]: an index that
    the table lacks reads [undefined], which prints as such. *)
Definition results_prefixed (label : option string) : string :=
  "results_" ++ match label with Some s => s | None => "undefined" end.

(** [results2class(buildOrStep, pulse)].  The entity goes to
    [getBuildOrStepResults] as it comes, so a null one is let through; a
    null pulse is [None]. *)
Definition results2class `{!BuildOrStep E}
    (buildOrStep : option E) (pulse : option string) : string :=
  let results := getBuildOrStepResults buildOrStep UNKNOWN in
  let ret := results_prefixed (intToResult !! results) in
  match pulse with
  | Some p => if (results =? PENDING)%Z then ret ++ " " ++ p else ret
  | None => ret
  end.

(** [results2text(objWithResults)].  The result is ["..."] or what
    [intToResult[...]] reads: a string, or [undefined] ([None]). *)
Definition results2text `{!HasResults E}
    (objWithResults : option E) : option string :=
  let ret := Some "..." in
  match objWithResults with
  | None => ret
  | Some e =>
      match recognized (results_of e) with
      | Some r => intToResult !! r
      | None => ret
      end
  end.

(** The precedence rule as the specification words it (getResultsOf): four
    steps, each one guarded by the failure of those before it. *)
Definition known_code (x : loose Z) : Prop :=
  ∃ n, x = Val n ∧ n ∈ dom intToResult.

(** The start time, an absent one counting as 0. *)
Definition start_time (x : loose Z) : Z :=
  match x with Val t => t | Undefined | Null => 0 end.

Inductive getResultsOf `{!BuildOrStep E} : option E → Z → Z → Prop :=
  | getResultsOf_absent fallback :
      getResultsOf None fallback fallback
  | getResultsOf_known e fallback n :
      results_of e = Val n →
      n ∈ dom intToResult →
      getResultsOf (Some e) fallback n
  | getResultsOf_in_progress e fallback :
      ¬ known_code (results_of e) →
      complete_of e = Val false →
      0 < start_time (started_at_of e) →
      getResultsOf (Some e) fallback PENDING
  | getResultsOf_fallback e fallback :
      ¬ known_code (results_of e) →
      ¬ (complete_of e = Val false ∧ 0 < start_time (started_at_of e)) →
      getResultsOf (Some e) fallback fallback.
End Results.

(** ** Builds as entities with results *)

(** A field read at its declared type.  On a build that is [well_typed]
    (below) the last case is [undefined] and nothing else. *)
Definition as_number (v : value) : loose Z :=
  match v with VNumber n => Val n | VNull => Null | _ => Undefined end.
Definition as_boolean (v : value) : loose bool :=
  match v with VBoolean b => Val b | VNull => Null | _ => Undefined end.

Definition loose_number (v : value) : bool :=
  match v with VNumber _ | VNull | VUndefined => true | _ => false end.
Definition loose_boolean (v : value) : bool :=
  match v with VBoolean _ | VNull | VUndefined => true | _ => false end.

(** The three observed fields hold values of their declared types, [null]
    or [undefined]. *)
Definition well_typed (b : Build) : bool :=
  loose_number (results b) && loose_boolean (complete b)
  && loose_number (started_at b).

(** A [Build] as the helpers are typed to receive it. *)
Record TypedBuild : Type := mkTypedBuild {
  the_build :> Build;
  the_build_typed : well_typed the_build = true
}.

#[global] Instance TypedBuild_results : HasResults TypedBuild :=
  λ b : TypedBuild, as_number (results b).
#[global] Instance TypedBuild_entity : BuildOrStep TypedBuild := {|
  BuildOrStep_results := TypedBuild_results;
  complete_of := λ b : TypedBuild, as_boolean (complete b);
  started_at_of := λ b : TypedBuild, as_number (started_at b)
|}.

(** ** Specifications of [update] and [toObject] *)

(** What an instance holds after [update(r)] ran in heap [h] and left heap
    [h']: the value of [r] under every tracked field, and for [properties]
    a new empty object when [r] has none. *)
Definition holds_exactly (r : object) (b : Build) (h h' : heap) : Prop :=
  buildid b = get r "buildid" ∧
  number b = get r "number" ∧
  builderid b = get r "builderid" ∧
  buildrequestid b = get r "buildrequestid" ∧
  workerid b = get r "workerid" ∧
  masterid b = get r "masterid" ∧
  started_at b = get r "started_at" ∧
  complete_at b = get r "complete_at" ∧
  complete b = get r "complete" ∧
  state_string b = get r "state_string" ∧
  results b = get r "results" ∧
  if is_nullish (get r "properties")
  then properties b = VObject (length h) ∧ h' = (h ++ [[]])%list
  else properties b = get r "properties" ∧ h' = h.

(** What [toObject] gives back for an instance [bh.1] that was filled from
    the well-formed record [raw] in heap [h], leaving heap [bh.2]. *)
Definition serializes_back (h : heap) (raw : object) (bh : Build * heap) : Prop :=
  let out := toObject bh.1 in
  keys out = tracked_fields ∧
  (∀ k, k ≠ "properties" → get out k = get raw k) ∧
  if has_key raw "properties"
  then get out "properties" = get raw "properties" ∧ bh.2 = h ∧
       ∀ fuel, deep_equal_object fuel h out raw = true
  else get out "properties" = VObject (length h) ∧
       bh.2 = (h ++ [[]])%list ∧
       ∀ fuel, deep_equal_object fuel bh.2 out raw = false.

(** ** Sample data *)

(** A finished build whose [properties] is an empty object, at reference
    [0] of [one_empty_object]. *)
Definition one_empty_object : heap := [ [] ].

Definition finished_raw : object :=
  [ ("buildid", VNumber 7); ("number", VNumber 3); ("builderid", VNumber 2);
    ("buildrequestid", VNull); ("workerid", VNumber 1);
    ("masterid", VNumber 1); ("started_at", VNumber 1700000000);
    ("complete_at", VNumber 1700000100); ("complete", VBoolean true);
    ("state_string", VString "build successful"); ("results", VNumber 0);
    ("properties", VObject 0%nat) ].

(** The same build when the server sends no [properties]. *)
Definition raw_without_properties : object :=
  [ ("buildid", VNumber 7); ("number", VNumber 3); ("builderid", VNumber 2);
    ("buildrequestid", VNull); ("workerid", VNumber 1);
    ("masterid", VNumber 1); ("started_at", VNumber 1700000000);
    ("complete_at", VNumber 1700000100); ("complete", VBoolean true);
    ("state_string", VString "build successful"); ("results", VNumber 0) ].

(** A record of the right shape that carries a result code although the
    build is not complete. *)
Definition unfinished_raw_with_results : object :=
  [ ("buildid", VNumber 8); ("number", VNumber 4); ("builderid", VNumber 2);
    ("buildrequestid", VNumber 11); ("workerid", VNumber 1);
    ("masterid", VNumber 1); ("started_at", VNumber 1700000200);
    ("complete_at", VNull); ("complete", VBoolean false);
    ("state_string", VString "building"); ("results", VNumber 0);
    ("properties", VObject 0%nat) ].

(** A newer record for build 7. *)
Definition later_raw : object :=
  [ ("buildid", VNumber 7); ("number", VNumber 3); ("builderid", VNumber 2);
    ("buildrequestid", VNull); ("workerid", VNumber 1);
    ("masterid", VNumber 1); ("started_at", VNumber 1700000000);
    ("complete_at", VNull); ("complete", VBoolean false);
    ("state_string", VString "building"); ("results", VNull) ].

(** Typed builds for the result helpers. *)
Definition build_with (buildid results complete started_at : value) : Build :=
  mkBuild buildid (VNumber 3) (VNumber 2) VNull (VNumber 1) (VNumber 1)
    started_at VNull complete (VString "building") results (VObject 0%nat).

(** A value of type [number|null] as a JavaScript value. *)
Definition as_value (x : option Z) : value :=
  match x with Some n => VNumber n | None => VNull end.

Definition running_build : TypedBuild :=
  mkTypedBuild
    (build_with (VNumber 7) VNull (VBoolean false) (VNumber 1700000000))
    eq_refl.

Definition other_running_build : TypedBuild :=
  mkTypedBuild
    (build_with (VNumber 9) VNull (VBoolean false) (VNumber 1700000000))
    eq_refl.

(** [results] holds the client-only code [PENDING] although the build is
    complete. *)
Definition complete_build_marked_pending : TypedBuild :=
  mkTypedBuild
    (build_with (VNumber 7) (VNumber 1000) (VBoolean true) (VNumber 5))
    eq_refl.

(** [complete] was missing from the raw record. *)
Definition started_build_without_complete : TypedBuild :=
  mkTypedBuild (build_with (VNumber 7) VNull VUndefined (VNumber 5)) eq_refl.

(** ** The classification as a computation on the heap *)

(** A computation that runs in a heap and may change it.  The heap is all
    the state there is: every object, the entity among them.  [None] marks
    a run that leaves the modelled fragment (a reference to no object, or a
    field holding a value outside its declared type where the code would
    coerce it). *)
Definition Run (A : Type) : Type := heap → option (A * heap).

#[global] Instance Run_ret : MRet Run := λ A (a : A) (h : heap), Some (a, h).

#[global] Instance Run_bind : MBind Run :=
  λ A B (f : A → Run B) (m : Run A) (h : heap),
    match m h with
    | Some (a, h') => f a h'
    | None => None
    end.

Definition stuck {A : Type} : Run A := λ _, None.

(** [l.k]: reading a property of the object behind a reference. *)
Definition read_property (l : loc) (k : string) : Run value :=
  λ h, match h !! l with
       | Some o => Some (get o k, h)
       | None => None
       end.

(** A value read from a field declared [number] or [number|null]. *)
Definition expect_number (v : value) : Run (loose Z) :=
  if loose_number v then mret (as_number v) else stuck.

(** [getBuildOrStepResults(buildOrStep, unknownResults)] run on an entity
    that lives in the heap: the argument is [null] or a reference, and the
    statements of the function read the properties of the object behind it
    where the source reads them ([&&] evaluates its right operand only when
    the left one holds). *)
Definition call_getBuildOrStepResults
    (buildOrStep : value) (unknownResults : Z) : Run Z :=
  match buildOrStep with
  | VNull => mret unknownResults
  | VObject l =>
      results ← read_property l "results" ≫= expect_number;
      match recognized results with
      | Some r => mret r
      | None =>
          complete ← read_property l "complete";
          if strict_eq complete (VBoolean false)
          then
            started_at ← read_property l "started_at" ≫= expect_number;
            if (coalesce started_at 0 >? 0)%Z
            then mret PENDING
            else mret unknownResults
          else mret unknownResults
      end
  | _ => stuck
  end.

(** The fields that the function coerces hold values of their declared
    types, [null] or [undefined].  ([complete] is only compared with
    [===], which coerces nothing.) *)
Definition object_typed (o : object) : bool :=
  loose_number (get o "results") && loose_number (get o "started_at").

(** An entity object as the helpers are typed to receive it. *)
Record TypedObject : Type := mkTypedObject {
  the_object :> object;
  the_object_typed : object_typed the_object = true
}.

#[global] Instance TypedObject_results : HasResults TypedObject :=
  λ o : TypedObject, as_number (get o "results").
#[global] Instance TypedObject_entity : BuildOrStep TypedObject := {|
  BuildOrStep_results := TypedObject_results;
  complete_of := λ o : TypedObject, as_boolean (get o "complete");
  started_at_of := λ o : TypedObject, as_number (get o "started_at")
|}.

(** The function observes the property [k]: two typed entities that differ
    in nothing but [k] get different results. *)
Definition observes (k : string) : Prop :=
  ∃ (o1 o2 : object) (unknownResults : Z),
    object_typed o1 = true ∧ object_typed o2 = true ∧
    (∀ k', k' ≠ k → get o1 k' = get o2 k') ∧
    fst <$> call_getBuildOrStepResults (VObject 0%nat) unknownResults [o1]
    ≠ fst <$> call_getBuildOrStepResults (VObject 0%nat) unknownResults [o2].

(** A running build as an object of the heap, with the fields of the
    class and one of its base class. *)
Definition running_entity : object :=
  ("id", VString "7") :: toObject (the_build running_build).

(** Another running build, started at the same time; its other fields
    differ. *)
Definition other_running_entity : object :=
  [ ("buildid", VNumber 9); ("number", VNumber 1); ("builderid", VNumber 5);
    ("started_at", VNumber 1700000000); ("complete", VBoolean false);
    ("state_string", VString "compiling"); ("results", VNull) ].

(** ** The colour table, the descriptor and the declared field types *)

Definition intToColor : gmap Z string :=
  list_to_map
    [ (SUCCESS, "#8d4");
      (WARNINGS, "#fa3");
      (FAILURE, "#e88");
      (SKIPPED, "#AADDEE");
      (EXCEPTION, "#c6c");
      (RETRY, "#ecc");
      (CANCELLED, "#ecc");
      (PENDING, "#E7D100");
      (UNKNOWN, "#EEE") ].

(** [class BuildDescriptor]: its two fields. *)
Record BuildDescriptor : Type := mkBuildDescriptor {
  restArrayField : string;
  fieldId : string
}.

(** [BuildDescriptor.parse(accessor, endpoint, object)]:
    [new Build(accessor, endpoint, object)]; the fields of the descriptor
    are not used. *)
Definition parse (this : BuildDescriptor) (obj : object) (h : heap)
    : Build * heap :=
  construct obj h.

(** [new BuildDescriptor()] *)
Definition buildDescriptor : BuildDescriptor :=
  mkBuildDescriptor "builds" "buildid".

(** The twelve fields hold values of the types the class declares for them:
    [number], [number|null], [boolean], [string], and for [properties] an
    object of the heap. *)
Definition declared_types (h : heap) (b : Build) : bool :=
  is_number (buildid b)
  && is_number (number b)
  && is_number (builderid b)
  && is_number_or_null (buildrequestid b)
  && is_number (workerid b)
  && is_number (masterid b)
  && is_number (started_at b)
  && is_number_or_null (complete_at b)
  && is_boolean (complete b)
  && is_string (state_string b)
  && is_number_or_null (results b)
  && is_object h (properties b).

(** The record [finished_raw] with a key that the class does not track. *)
Definition finished_raw_with_extra_key : object :=
  ("locks_duration_s", VNumber 12) :: finished_raw.

(** A complete build with result code [FAILURE]. *)
Definition failed_build : TypedBuild :=
  mkTypedBuild
    (build_with (VNumber 7) (VNumber 2) (VBoolean true) (VNumber 5))
    eq_refl.

(** * Properties *)

(** ** Objects *)

Lemma has_key_true (o : object) (k : string) :
  has_key o k = true ↔ k ∈ keys o.
Proof.
  unfold has_key. rewrite existsb_exists. split.
  - intros (k' & Hin & Heq). apply String.eqb_eq in Heq. subst k'.
    by apply list_elem_of_In.
  - intros Hin. exists k. split; [by apply list_elem_of_In|].
    apply String.eqb_refl.
Qed.

Lemma get_absent (o : object) (k : string) :
  has_key o k = false → get o k = VUndefined.
Proof.
  induction o as [|[k' v] o IH]; [done|].
  unfold has_key. cbn. intros H. apply orb_false_iff in H as [Hk Ho].
  rewrite String.eqb_sym, Hk. by apply IH.
Qed.

Lemma get_defined (o : object) (k : string) :
  get o k ≠ VUndefined → has_key o k = true.
Proof.
  intros H. destruct (has_key o k) eqn:Hk; [done|].
  by apply get_absent in Hk.
Qed.

Lemma deep_equal_refl (fuel : nat) (h : heap) (v : value) :
  deep_equal fuel h v v = true.
Proof.
  destruct v; destruct fuel; cbn; try by apply bool_decide_eq_true.
  all: by rewrite Nat.eqb_refl.
Qed.

Lemma tracked_field_cases (k : string) :
  k ∈ tracked_fields →
  k = "buildid" ∨ k = "number" ∨ k = "builderid" ∨ k = "buildrequestid" ∨
  k = "workerid" ∨ k = "masterid" ∨ k = "started_at" ∨ k = "complete_at" ∨
  k = "complete" ∨ k = "state_string" ∨ k = "results" ∨ k = "properties".
Proof. unfold tracked_fields. rewrite !elem_of_cons, elem_of_nil. tauto. Qed.

Lemma keys_toObject (b : Build) : keys (toObject b) = tracked_fields.
Proof. reflexivity. Qed.

Lemma build_with_typed (i : value) (results : option Z) (complete : bool)
    (started_at : Z) :
  well_typed
    (build_with i (as_value results) (VBoolean complete) (VNumber started_at))
  = true.
Proof. by destruct results. Qed.

(** ** update *)

Lemma update_holds_exactly (r : object) (this : Build) (h : heap) :
  holds_exactly r (update r this h).1 h (update r this h).2.
Proof.
  unfold holds_exactly, update, coalesce_new_object, new_object.
  destruct (is_nullish (get r "properties")); cbn; tauto.
Qed.

Lemma get_toObject_tracked (b : Build) (r : object) (h h' : heap) (k : string) :
  holds_exactly r b h h' →
  k ∈ tracked_fields → k ≠ "properties" →
  get (toObject b) k = get r k.
Proof.
  intros (?&?&?&?&?&?&?&?&?&?&?&_) Hk Hne.
  apply tracked_field_cases in Hk.
  repeat (destruct Hk as [-> | Hk]; [by cbn|]). by subst k.
Qed.

(** The conjuncts of [well_formed], one by one. *)
Lemma well_formed_inv (h : heap) (o : object) :
  well_formed h o = true →
  (∀ k, k ∈ keys o → k ∈ tracked_fields) ∧
  (∀ k, k ∈ tracked_fields → k ≠ "properties" → has_key o k = true) ∧
  (has_key o "properties" = true → is_nullish (get o "properties") = false).
Proof.
  unfold well_formed. rewrite !andb_true_iff.
  intros [[[[[[[[[[[[[_ Hkeys] H1] H2] H3] H4] H5] H6] H7] H8] H9] H10] H11] Hp].
  split; [|split].
  - intros k Hk. rewrite forallb_forall in Hkeys.
    apply list_elem_of_In, Hkeys in Hk. by apply bool_decide_eq_true in Hk.
  - intros k Hk Hne. apply tracked_field_cases in Hk.
    repeat (destruct Hk as [-> | Hk];
            [apply get_defined; intros Hu; rewrite Hu in *; discriminate|]).
    by subst k.
  - intros Hk. rewrite Hk in Hp. cbn in Hp.
    by destruct (get o "properties").
Qed.

Lemma update_serializes_back (h : heap) (raw : object) (this : Build) :
  well_formed h raw = true →
  serializes_back h raw (update raw this h).
Proof.
  intros Hwf. apply well_formed_inv in Hwf as (Hsub & Hreq & Hprop).
  pose proof (update_holds_exactly raw this h) as Hu.
  destruct (update raw this h) as [b h'] eqn:Hupd. cbn [fst snd] in *.
  unfold serializes_back. cbn [fst snd]. cbv zeta.
  assert (Hother : ∀ k, k ≠ "properties" → get (toObject b) k = get raw k).
  { intros k Hne. destruct (decide (k ∈ tracked_fields)) as [Hk|Hk].
    - by eapply get_toObject_tracked.
    - rewrite !get_absent; [done| |].
      + destruct (has_key raw k) eqn:E; [|done].
        apply has_key_true, Hsub in E. done.
      + destruct (has_key (toObject b) k) eqn:E; [|done].
        apply has_key_true in E. by rewrite keys_toObject in E. }
  split; [apply keys_toObject|]. split; [exact Hother|].
  destruct Hu as (_&_&_&_&_&_&_&_&_&_&_&Hu).
  destruct (has_key raw "properties") eqn:Hk.
  - rewrite (Hprop eq_refl) in Hu. destruct Hu as [Hp ->].
    split; [exact Hp|]. split; [done|]. intros fuel.
    unfold deep_equal_object, objects_equal, same_keys.
    rewrite !andb_true_iff. split; [split|].
    + rewrite keys_toObject. apply forallb_forall. intros k Hin.
      apply list_elem_of_In in Hin.
      destruct (decide (k = "properties")) as [->|Hne]; [done|].
      by apply Hreq.
    + apply forallb_forall. intros k Hin. apply list_elem_of_In in Hin.
      apply has_key_true. rewrite keys_toObject. by apply Hsub.
    + apply forallb_forall. intros k Hin.
      destruct (decide (k = "properties")) as [->|Hne].
      * change (get (toObject b) "properties") with (properties b).
        rewrite Hp. apply deep_equal_refl.
      * rewrite Hother by done. apply deep_equal_refl.
  - rewrite (get_absent _ _ Hk) in Hu. cbn in Hu. destruct Hu as [Hp ->].
    split; [exact Hp|]. split; [done|]. intros fuel.
    unfold deep_equal_object, objects_equal, same_keys.
    rewrite keys_toObject.
    replace (forallb (has_key raw) tracked_fields) with false; [done|].
    symmetry. apply not_true_is_false. intros Hall.
    rewrite forallb_forall in Hall.
    specialize (Hall "properties"). rewrite Hk in Hall.
    discriminate Hall. apply list_elem_of_In. unfold tracked_fields. set_solver.
Qed.

Lemma same_state_after_update (r : object) (b1 b2 : Build) (h0 h1 h2 : heap) :
  holds_exactly r b1 h0 h1 → holds_exactly r b2 h1 h2 →
  ∀ fuel, same_state (S fuel) h2 b1 b2 = true.
Proof.
  intros (H1&H2&H3&H4&H5&H6&H7&H8&H9&H10&H11&Hp)
         (G1&G2&G3&G4&G5&G6&G7&G8&G9&G10&G11&Gp) fuel.
  unfold same_state, deep_equal_object, objects_equal.
  apply andb_true_iff. split; [reflexivity|].
  rewrite keys_toObject. unfold tracked_fields. cbn [forallb].
  change (get (toObject b1) "properties") with (properties b1).
  change (get (toObject b2) "properties") with (properties b2).
  cbn [get toObject String.eqb Ascii.eqb Bool.eqb].
  rewrite H1, H2, H3, H4, H5, H6, H7, H8, H9, H10, H11.
  rewrite G1, G2, G3, G4, G5, G6, G7, G8, G9, G10, G11.
  rewrite !deep_equal_refl. cbn [andb].
  rewrite andb_true_r.
  destruct (is_nullish (get r "properties")).
  - destruct Hp as [-> ->], Gp as [-> ->].
    cbn [deep_equal]. apply orb_true_iff. right.
    rewrite <- app_assoc. cbn [app].
    rewrite (list_lookup_middle h0 [[]] [] (length h0) eq_refl).
    change (h0 ++ [[]; []])%list with (h0 ++ [[]] ++ [[]])%list.
    rewrite app_assoc.
    rewrite (list_lookup_middle (h0 ++ [[]]) [] [] _ eq_refl).
    reflexivity.
  - destruct Hp as [-> _], Gp as [-> _]. apply deep_equal_refl.
Qed.

(** C3. [Build.update] is an idempotent full replacement.  Calling
    [update(r1)] a second time leaves the same tracked-field state as
    calling it once: every field holds the value of [r1] again, and for
    [properties] the object of [r1], or an empty object when [r1] has none
    (a new one at each call, hence deep equality).  Calling [update(r2)]
    after [update(r1)] leaves exactly the values of [r2] under every
    tracked field, [properties] being a new empty object when [r2] has
    none; the outcome is the one [update(r2)] has on any other instance, so
    nothing of [r1] survives. *)
Theorem update_idempotent_full_replacement
    (r1 r2 : object) (this : Build) (h : heap) :
  let once := update r1 this h in
  let twice := update r1 once.1 once.2 in
  let replaced := update r2 once.1 once.2 in
  (∀ fuel, same_state (S fuel) twice.2 once.1 twice.1 = true) ∧
  holds_exactly r1 once.1 h once.2 ∧
  holds_exactly r1 twice.1 once.2 twice.2 ∧
  holds_exactly r2 replaced.1 once.2 replaced.2 ∧
  (∀ other : Build, update r2 other once.2 = replaced).
Proof.
  intros once twice replaced. split; [|split; [|split; [|split]]].
  - apply (same_state_after_update r1 _ _ h once.2); apply update_holds_exactly.
  - apply update_holds_exactly.
  - apply update_holds_exactly.
  - apply update_holds_exactly.
  - intros other. subst replaced. unfold update.
    by destruct (coalesce_new_object (get r2 "properties") once.2).
Qed.

(** C2 (as amended).  For every well-formed raw record, [toObject] after
    the constructor (or after [update] on any instance) gives a record
    with exactly the twelve tracked keys in the fixed order, holding under
    every key but [properties] the value of the raw record.  When the raw
    record has [properties], the result holds that very reference, no
    object is created, and the result is deep-equal to the raw record.
    When it has none, the result holds a new empty object under
    [properties] and so is not deep-equal to the raw record. *)
Theorem toObject_inverts_construct (h : heap) (raw : object) :
  well_formed h raw = true →
  serializes_back h raw (construct raw h) ∧
  ∀ this : Build, serializes_back h raw (update raw this h).
Proof.
  intros Hwf. split; [|intros this]; by apply update_serializes_back.
Qed.

Lemma toObject_inverts_construct_witness :
  well_formed one_empty_object finished_raw = true ∧
  (serializes_back one_empty_object finished_raw
     (construct finished_raw one_empty_object) ∧
   ∀ this : Build,
     serializes_back one_empty_object finished_raw
       (update finished_raw this one_empty_object)).
Proof.
  split; [reflexivity|].
  apply (toObject_inverts_construct one_empty_object finished_raw).
  reflexivity.
Defined.

(** C2 as stated fails: a record without [properties] is well formed, and
    the record that [toObject] gives for it has a [properties] key, so the
    two are not deep-equal. *)
Lemma roundtrip_fails_without_properties :
  well_formed one_empty_object raw_without_properties = true ∧
  has_key (toObject (construct raw_without_properties one_empty_object).1)
    "properties" = true ∧
  has_key raw_without_properties "properties" = false ∧
  ∀ fuel,
    deep_equal_object fuel
      (construct raw_without_properties one_empty_object).2
      (toObject (construct raw_without_properties one_empty_object).1)
      raw_without_properties = false.
Proof.
  split; [reflexivity|]. split; [reflexivity|]. split; [reflexivity|].
  intros fuel. reflexivity.
Qed.

(** C6 (as amended).  [update] and the constructor copy [complete_at],
    [complete] and [results] as they find them and check nothing: the
    instance satisfies the invariant exactly when the raw record does.
    When the raw record has no [properties], the field is a new empty
    object. *)
Theorem update_preserves_invariant_of_raw
    (raw : object) (this : Build) (h : heap) :
  (Build_invariant (update raw this h).1 ↔
   completion_invariant
     (get raw "complete_at") (get raw "complete") (get raw "results")) ∧
  (Build_invariant (construct raw h).1 ↔
   completion_invariant
     (get raw "complete_at") (get raw "complete") (get raw "results")) ∧
  (has_key raw "properties" = false →
   properties (update raw this h).1 = VObject (length h) ∧
   h !! length h = None ∧
   (update raw this h).2 !! length h = Some []).
Proof.
  assert (Hinv : ∀ b0, Build_invariant (update raw b0 h).1 ↔
    completion_invariant
      (get raw "complete_at") (get raw "complete") (get raw "results")).
  { intros b0. unfold Build_invariant.
    destruct (update_holds_exactly raw b0 h)
      as (_&_&_&_&_&_&_&->&->&_&->&_). done. }
  split; [apply Hinv|]. split; [apply Hinv|].
  intros Hk. destruct (update_holds_exactly raw this h)
    as (_&_&_&_&_&_&_&_&_&_&_&Hp).
  rewrite (get_absent _ _ Hk) in Hp. cbn in Hp. destruct Hp as [-> ->].
  split; [done|]. split.
  - apply lookup_ge_None. lia.
  - rewrite lookup_app_r by lia. by rewrite Nat.sub_diag.
Qed.

(** C6 as stated fails: the record below has the shape of section 6, is not
    complete and carries result code 0; the build made from it has a
    non-null [results] while [complete] is false. *)
Lemma unfinished_build_with_results :
  well_formed one_empty_object unfinished_raw_with_results = true ∧
  ¬ Build_invariant (construct unfinished_raw_with_results one_empty_object).1.
Proof.
  split; [reflexivity|]. intros [_ H]. cbn in H.
  assert (VBoolean false = VBoolean true) by (apply H; discriminate).
  discriminate.
Qed.

(** ** The label table *)

Lemma intToResult_lookup (n : Z) :
  intToResult !! n =
    if decide (n = SUCCESS) then Some "SUCCESS"
    else if decide (n = WARNINGS) then Some "WARNINGS"
    else if decide (n = FAILURE) then Some "FAILURE"
    else if decide (n = SKIPPED) then Some "SKIPPED"
    else if decide (n = EXCEPTION) then Some "EXCEPTION"
    else if decide (n = RETRY) then Some "RETRY"
    else if decide (n = CANCELLED) then Some "CANCELLED"
    else if decide (n = PENDING) then Some "PENDING"
    else if decide (n = UNKNOWN) then Some "UNKNOWN"
    else None.
Proof.
  unfold intToResult. cbn [list_to_map foldr fst snd uncurry].
  repeat (rewrite lookup_insert; case_decide; [by subst; rewrite decide_True|];
          rewrite decide_False by congruence).
  apply lookup_empty.
Qed.

Lemma intToResult_keys (n : Z) :
  n ∈ dom intToResult ↔
  n ∈ [SUCCESS; WARNINGS; FAILURE; SKIPPED; EXCEPTION; RETRY; CANCELLED;
       PENDING; UNKNOWN].
Proof.
  rewrite elem_of_dom, intToResult_lookup, !elem_of_cons, elem_of_nil.
  repeat case_decide; split; intros Hyp; try (by eauto); try tauto.
Qed.

Lemma intToResult_labels (n : Z) (s : string) :
  intToResult !! n = Some s → s ∈ labels.
Proof.
  rewrite intToResult_lookup. unfold labels.
  repeat case_decide; intros [= <-]; set_solver.
Qed.

Lemma recognized_Some (x : loose Z) (r : Z) :
  recognized x = Some r ↔ x = Val r ∧ r ∈ dom intToResult.
Proof.
  rewrite elem_of_dom. unfold recognized.
  destruct x as [| |n]; cbn; try (split; [done|by intros [? _]]).
  case_bool_decide; split.
  - by intros [= ->].
  - by intros [[= ->] _].
  - done.
  - intros [[= ->] ?]. done.
Qed.

Lemma recognized_None (x : loose Z) :
  recognized x = None ↔ ¬ known_code x.
Proof.
  unfold known_code. split.
  - intros H (n & -> & Hn). 
    assert (recognized (Val n) = Some n) as E by by apply recognized_Some.
    congruence.
  - intros H. destruct (recognized x) as [r|] eqn:E; [|done].
    apply recognized_Some in E as [-> ?]. destruct H. eauto.
Qed.

Lemma coalesce_start_time (x : loose Z) : coalesce x 0 = start_time x.
Proof. by destruct x. Qed.

Lemma is_false_true (x : loose bool) : is_false x = true ↔ x = Val false.
Proof. destruct x as [| |[]]; cbn; split; intros Hyp; done. Qed.

Lemma append_empty_r (s : string) : s ++ "" = s.
Proof.
  induction s as [|a s IH]; [done|].
  change (String a (s ++ "") = String a s). by rewrite IH.
Qed.

Lemma append_assoc (s t u : string) : (s ++ t) ++ u = s ++ t ++ u.
Proof.
  induction s as [|a s IH]; [done|].
  change (String a ((s ++ t) ++ u) = String a (s ++ t ++ u)). by rewrite IH.
Qed.

Section ResultsProperties.
Context {E : Type} `{!BuildOrStep E}.

(** With [UNKNOWN] for fallback the classification is a key of the
    table. *)
Lemma getBuildOrStepResults_UNKNOWN_key (e : option E) :
  getBuildOrStepResults e UNKNOWN ∈ dom intToResult.
Proof.
  unfold getBuildOrStepResults. destruct e as [e|].
  - destruct (recognized (results_of e)) as [r|] eqn:Hr.
    + by apply recognized_Some in Hr as [_ ?].
    + destruct (_ && _); apply intToResult_keys; set_solver.
  - apply intToResult_keys; set_solver.
Qed.

(** C1. [getBuildOrStepResults] follows the four-step precedence rule
    exactly: for every entity (null or not) and every fallback, the value
    it returns is the one the rule gives, and the rule gives no other. *)
Theorem getBuildOrStepResults_precedence
    (buildOrStep : option E) (unknownResults r : Z) :
  getResultsOf buildOrStep unknownResults r ↔
  r = getBuildOrStepResults buildOrStep unknownResults.
Proof.
  unfold getBuildOrStepResults. split.
  - intros H. destruct H as [fb|e fb n Hn Hk|e fb Hk Hc Hs|e fb Hk Hc].
    + done.
    + assert (recognized (results_of e) = Some n) as ->
        by by apply recognized_Some.
      done.
    + apply recognized_None in Hk as ->.
      apply is_false_true in Hc as ->. rewrite coalesce_start_time.
      assert ((start_time (started_at_of e) >? 0)%Z = true) as ->
        by (apply Z.gtb_lt; lia).
      done.
    + apply recognized_None in Hk as ->.
      destruct (is_false (complete_of e)) eqn:Hf; [|done].
      apply is_false_true in Hf. rewrite coalesce_start_time.
      destruct (start_time (started_at_of e) >? 0)%Z eqn:Hs; [|done].
      destruct Hc. split; [done|]. apply Z.gtb_lt in Hs. lia.
  - intros ->. destruct buildOrStep as [e|]; [|constructor].
    destruct (recognized (results_of e)) as [n|] eqn:Hr.
    + apply recognized_Some in Hr as [? ?]. by constructor.
    + apply recognized_None in Hr. rewrite coalesce_start_time.
      destruct (is_false (complete_of e)) eqn:Hf.
      * apply is_false_true in Hf.
        destruct (start_time (started_at_of e) >? 0)%Z eqn:Hs; cbn.
        -- apply getResultsOf_in_progress; [done..|].
           apply Z.gtb_lt in Hs. lia.
        -- apply getResultsOf_fallback; [done|]. intros [_ ?].
           assert ((start_time (started_at_of e) >? 0)%Z = true)
             by (apply Z.gtb_lt; lia).
           congruence.
      * cbn. apply getResultsOf_fallback; [done|]. intros [Hc _].
        apply is_false_true in Hc. congruence.
Qed.
End ResultsProperties.

Section ClassNames.
Context {E : Type} `{!BuildOrStep E}.

(** The class name, with the label read from the table. *)
Lemma results2class_unfold (buildOrStep : option E) (pulse : option string) :
  ∃ label,
    intToResult !! getBuildOrStepResults buildOrStep UNKNOWN = Some label ∧
    label ∈ labels ∧
    results2class buildOrStep pulse =
      match pulse with
      | Some p =>
          if decide (getBuildOrStepResults buildOrStep UNKNOWN = PENDING)
          then ("results_" ++ label) ++ " " ++ p
          else "results_" ++ label
      | None => "results_" ++ label
      end.
Proof.
  pose proof (getBuildOrStepResults_UNKNOWN_key buildOrStep) as Hk.
  apply elem_of_dom in Hk as [label Hl]. exists label.
  split; [done|]. split; [by eapply intToResult_labels|].
  unfold results2class. cbv zeta. rewrite Hl. unfold results_prefixed.
  destruct pulse as [p|]; [|done].
  destruct (Z.eqb_spec (getBuildOrStepResults buildOrStep UNKNOWN) PENDING).
  - by rewrite decide_True.
  - by rewrite decide_False.
Qed.

(** C5. [results2class] returns ["results_"] followed by the label of
    [getBuildOrStepResults(entity, UNKNOWN)], and after it a space and the
    pulse token exactly when that classification is [PENDING] and the
    pulse argument is not null. *)
Theorem results2class_label_and_pulse
    (buildOrStep : option E) (pulse : option string) :
  ∃ label,
    intToResult !! getBuildOrStepResults buildOrStep UNKNOWN = Some label ∧
    results2class buildOrStep pulse =
      match pulse with
      | Some p =>
          if decide (getBuildOrStepResults buildOrStep UNKNOWN = PENDING)
          then ("results_" ++ label) ++ " " ++ p
          else "results_" ++ label
      | None => "results_" ++ label
      end.
Proof.
  destruct (results2class_unfold buildOrStep pulse) as (label & ? & _ & ?).
  by exists label.
Qed.

(** C9. Whatever the entity holds, [getBuildOrStepResults] with fallback
    [UNKNOWN] returns a key of [intToResult], so [results2class] returns
    ["results_"] followed by one of the nine labels (and then, at most,
    the pulse token): the label is never [undefined]. *)
Theorem results2class_label_defined
    (buildOrStep : option E) (pulse : option string) :
  getBuildOrStepResults buildOrStep UNKNOWN ∈ dom intToResult ∧
  ∃ label suffix,
    label ∈ labels ∧
    results2class buildOrStep pulse = "results_" ++ label ++ suffix.
Proof.
  split; [apply getBuildOrStepResults_UNKNOWN_key|].
  destruct (results2class_unfold buildOrStep pulse) as (label & _ & ? & ->).
  exists label. destruct pulse as [p|].
  - case_decide.
    + exists (" " ++ p). by rewrite append_assoc.
    + exists "". by rewrite append_empty_r.
  - exists "". by rewrite append_empty_r.
Qed.

(** C8. The membership test uses the whole table, nine entries: an
    entity whose [results] is the client-only code [PENDING] or [UNKNOWN]
    gets that code back, whatever [complete] and the fallback are. *)
Theorem synthetic_codes_returned_verbatim (e : E) (unknownResults n : Z) :
  results_of e = Val n →
  n = PENDING ∨ n = UNKNOWN →
  size intToResult = 9%nat ∧
  n ∈ dom intToResult ∧
  getBuildOrStepResults (Some e) unknownResults = n.
Proof.
  intros Hr Hn. split; [reflexivity|].
  assert (n ∈ dom intToResult) as Hk.
  { apply intToResult_keys. destruct Hn as [-> | ->]; set_solver. }
  split; [done|]. unfold getBuildOrStepResults.
  assert (recognized (results_of e) = Some n) as ->
    by by apply recognized_Some.
  done.
Qed.

(** C10. The in-progress branch is taken only when [complete] is the
    boolean [false]: when [results] is null or not a known code and
    [complete] is anything else, the fallback is returned, whatever
    [started_at] is. *)
Theorem in_progress_needs_complete_false (e : E) (unknownResults : Z) :
  ¬ known_code (results_of e) →
  complete_of e ≠ Val false →
  getBuildOrStepResults (Some e) unknownResults = unknownResults.
Proof.
  intros Hk Hc. unfold getBuildOrStepResults.
  apply recognized_None in Hk as ->.
  destruct (is_false (complete_of e)) eqn:Hf; [|done].
  by apply is_false_true in Hf.
Qed.
End ClassNames.

Section Texts.
Context {E : Type} `{!HasResults E}.

(** C4. [results2text] returns the label of the entity's result code when
    the code is non-null and a key of the table (["SUCCESS"] for 0), and
    ["..."] otherwise: for a null entity, for null results and for a code
    that is no key.  It takes no fallback, and what it returns is always a
    string. *)
Theorem results2text_label_or_ellipsis (objWithResults : option E) :
  (∀ e n, objWithResults = Some e → results_of e = Val n →
          n ∈ dom intToResult →
          ∃ label, intToResult !! n = Some label ∧ label ∈ labels ∧
                   results2text objWithResults = Some label) ∧
  (∀ e, objWithResults = Some e → results_of e = Val SUCCESS →
        results2text objWithResults = Some "SUCCESS") ∧
  (objWithResults = None → results2text objWithResults = Some "...") ∧
  (∀ e, objWithResults = Some e → results_of e = Null →
        results2text objWithResults = Some "...") ∧
  (∀ e, objWithResults = Some e → ¬ known_code (results_of e) →
        results2text objWithResults = Some "...") ∧
  is_Some (results2text objWithResults).
Proof.
  assert (Hknown : ∀ e n, results_of e = Val n → n ∈ dom intToResult →
            results2text (Some e) = intToResult !! n).
  { intros e n Hr Hn. unfold results2text. cbv zeta.
    assert (recognized (results_of e) = Some n) as ->
      by by apply recognized_Some.
    done. }
  assert (Hother : ∀ e, ¬ known_code (results_of e) →
            results2text (Some e) = Some "...").
  { intros e Hk. unfold results2text. cbv zeta.
    by apply recognized_None in Hk as ->. }
  split; [|split; [|split; [|split; [|split]]]].
  - intros e n -> Hr Hn. rewrite (Hknown e n Hr Hn).
    apply elem_of_dom in Hn as [label Hl]. exists label.
    split; [done|]. split; [by eapply intToResult_labels|done].
  - intros e -> Hr. rewrite (Hknown e SUCCESS Hr); [done|].
    apply intToResult_keys. set_solver.
  - by intros ->.
  - intros e -> Hr. apply Hother. rewrite Hr. by intros (n & ? & _).
  - intros e ->. apply Hother.
  - destruct objWithResults as [e|]; [|by eexists].
    destruct (recognized (results_of e)) as [n|] eqn:Hr.
    + apply recognized_Some in Hr as [Hr Hn]. rewrite (Hknown e n Hr Hn).
      by apply elem_of_dom.
    + apply recognized_None in Hr. rewrite (Hother e Hr). by eexists.
Qed.
End Texts.

(** ** The helpers on builds *)

Lemma call_getBuildOrStepResults_null (unknownResults : Z) (h : heap) :
  call_getBuildOrStepResults VNull unknownResults h
  = Some (getBuildOrStepResults (E := TypedObject) None unknownResults, h).
Proof. reflexivity. Qed.

(** On a typed entity of the heap the call returns what
    [getBuildOrStepResults] gives for that entity, and leaves the heap as
    it was. *)
Lemma call_getBuildOrStepResults_object
    (h : heap) (l : loc) (o : TypedObject) (unknownResults : Z) :
  h !! l = Some (the_object o) →
  call_getBuildOrStepResults (VObject l) unknownResults h
  = Some (getBuildOrStepResults (Some o) unknownResults, h).
Proof.
  intros Hl. destruct o as [o Ho]. cbn [the_object] in Hl.
  pose proof Ho as Ht. unfold object_typed in Ht.
  apply andb_true_iff in Ht as [Hr Hs].
  unfold call_getBuildOrStepResults, getBuildOrStepResults.
  cbv [results_of BuildOrStep_results TypedObject_entity TypedObject_results
       complete_of started_at_of the_object].
  unfold mbind, Run_bind, read_property, expect_number. rewrite Hl, Hr.
  unfold mret at 1. unfold Run_ret at 1.
  destruct (recognized (as_number (get o "results"))) as [r|]; [done|].
  rewrite Hl.
  assert (strict_eq (get o "complete") (VBoolean false)
          = is_false (as_boolean (get o "complete"))) as ->.
  { destruct (get o "complete") as [| |[]| | |]; reflexivity. }
  destruct (is_false (as_boolean (get o "complete"))); [|done].
  rewrite Hl, Hs. cbn [andb]. unfold mret at 1. unfold Run_ret at 1.
  by destruct (coalesce (as_number (get o "started_at")) 0 >? 0)%Z.
Qed.

Lemma observes_results : observes "results".
Proof.
  exists [("results", VNumber 0)], [("results", VNumber 2)], UNKNOWN.
  split; [reflexivity|]. split; [reflexivity|]. split; [|discriminate].
  intros k' Hk. cbn [get].
  destruct (String.eqb_spec "results" k') as [Heq|_]; [by destruct Hk|].
  by repeat case_match.
Qed.

Lemma observes_complete : observes "complete".
Proof.
  exists [("complete", VBoolean false); ("started_at", VNumber 5)],
         [("complete", VBoolean true); ("started_at", VNumber 5)], UNKNOWN.
  split; [reflexivity|]. split; [reflexivity|]. split; [|discriminate].
  intros k' Hk. cbn [get].
  destruct (String.eqb_spec "complete" k') as [Heq|_]; [by destruct Hk|].
  by repeat case_match.
Qed.

Lemma observes_started_at : observes "started_at".
Proof.
  exists [("started_at", VNumber 5); ("complete", VBoolean false)],
         [("started_at", VNumber 0); ("complete", VBoolean false)], UNKNOWN.
  split; [reflexivity|]. split; [reflexivity|]. split; [|discriminate].
  intros k' Hk. cbn [get].
  destruct (String.eqb_spec "started_at" k') as [Heq|_]; [by destruct Hk|].
  by repeat case_match.
Qed.

(** C7. [getBuildOrStepResults] is a pure function of three fields of the
    entity.  Take an entity in a heap and another one in any other heap,
    agreeing on [results], [complete] and [started_at] (of their declared
    types, null or undefined) and on nothing else: for every fallback the
    call returns the same result for both, whatever else the entities and
    the heaps hold; it returns it again when called again; and each call
    leaves the heap exactly as it found it, so nothing is assigned and
    nothing is kept from one call to the next.  The result is the one
    [getBuildOrStepResults] gives for the entity read at its declared
    types.  The three fields are exactly the ones observed: for each of
    them there are entities that differ in that field alone and get
    different results. *)
Theorem call_getBuildOrStepResults_pure
    (h1 h2 : heap) (l1 l2 : loc) (o1 o2 : object) (unknownResults : Z)
    (Htyped : object_typed o1 = true) :
  h1 !! l1 = Some o1 →
  h2 !! l2 = Some o2 →
  get o1 "results" = get o2 "results" →
  get o1 "complete" = get o2 "complete" →
  get o1 "started_at" = get o2 "started_at" →
  ∃ r,
    r = getBuildOrStepResults (Some (mkTypedObject o1 Htyped)) unknownResults ∧
    call_getBuildOrStepResults (VObject l1) unknownResults h1 = Some (r, h1) ∧
    call_getBuildOrStepResults (VObject l2) unknownResults h2 = Some (r, h2) ∧
    (call_getBuildOrStepResults (VObject l1) unknownResults ≫=
       λ _, call_getBuildOrStepResults (VObject l1) unknownResults) h1
    = Some (r, h1) ∧
    (∀ h, call_getBuildOrStepResults VNull unknownResults h
          = Some (unknownResults, h)) ∧
    observes "results" ∧ observes "complete" ∧ observes "started_at".
Proof.
  intros Hl1 Hl2 Hr Hc Hs.
  assert (object_typed o2 = true) as Htyped2
    by (unfold object_typed in *; by rewrite <- Hr, <- Hs).
  pose proof (call_getBuildOrStepResults_object h1 l1
                (mkTypedObject o1 Htyped) unknownResults Hl1) as H1.
  pose proof (call_getBuildOrStepResults_object h2 l2
                (mkTypedObject o2 Htyped2) unknownResults Hl2) as H2.
  assert (getBuildOrStepResults (Some (mkTypedObject o2 Htyped2)) unknownResults
          = getBuildOrStepResults (Some (mkTypedObject o1 Htyped)) unknownResults)
    as Heq.
  { unfold getBuildOrStepResults.
    cbv [results_of BuildOrStep_results TypedObject_entity
         TypedObject_results complete_of started_at_of the_object].
    by rewrite Hr, Hc, Hs. }
  rewrite Heq in H2. eexists. split; [reflexivity|].
  split; [exact H1|]. split; [exact H2|]. split.
  - unfold mbind, Run_bind. rewrite H1. exact H1.
  - split; [done|].
    split; [apply observes_results|].
    split; [apply observes_complete | apply observes_started_at].
Qed.

Lemma call_getBuildOrStepResults_pure_witness :
  [running_entity] !! 0%nat = Some running_entity ∧
  [[]; other_running_entity] !! 1%nat = Some other_running_entity ∧
  get running_entity "results" = get other_running_entity "results" ∧
  get running_entity "complete" = get other_running_entity "complete" ∧
  get running_entity "started_at" = get other_running_entity "started_at" ∧
  get running_entity "buildid" ≠ get other_running_entity "buildid" ∧
  ∃ r,
    r = getBuildOrStepResults
          (Some (mkTypedObject running_entity eq_refl)) UNKNOWN ∧
    call_getBuildOrStepResults (VObject 0%nat) UNKNOWN [running_entity]
    = Some (r, [running_entity]) ∧
    call_getBuildOrStepResults (VObject 1%nat) UNKNOWN
      [[]; other_running_entity]
    = Some (r, [[]; other_running_entity]) ∧
    (call_getBuildOrStepResults (VObject 0%nat) UNKNOWN ≫=
       λ _, call_getBuildOrStepResults (VObject 0%nat) UNKNOWN)
      [running_entity]
    = Some (r, [running_entity]) ∧
    (∀ h, call_getBuildOrStepResults VNull UNKNOWN h = Some (UNKNOWN, h)) ∧
    observes "results" ∧ observes "complete" ∧ observes "started_at".
Proof.
  split; [reflexivity|]. split; [reflexivity|]. split; [reflexivity|].
  split; [reflexivity|]. split; [reflexivity|]. split; [discriminate|].
  apply (call_getBuildOrStepResults_pure
           [running_entity] [[]; other_running_entity] 0%nat 1%nat
           running_entity other_running_entity UNKNOWN eq_refl);
    reflexivity.
Defined.

Lemma synthetic_codes_returned_verbatim_witness :
  results_of complete_build_marked_pending = Val PENDING ∧
  (PENDING = PENDING ∨ PENDING = UNKNOWN) ∧
  complete_of complete_build_marked_pending = Val true ∧
  (size intToResult = 9%nat ∧
   PENDING ∈ dom intToResult ∧
   getBuildOrStepResults (Some complete_build_marked_pending) UNKNOWN = PENDING).
Proof.
  split; [reflexivity|]. split; [by left|]. split; [reflexivity|].
  apply (synthetic_codes_returned_verbatim
           complete_build_marked_pending UNKNOWN PENDING);
    [reflexivity | by left].
Defined.

Lemma in_progress_needs_complete_false_witness :
  ¬ known_code (results_of started_build_without_complete) ∧
  complete_of started_build_without_complete ≠ Val false ∧
  started_at_of started_build_without_complete = Val 5 ∧
  getBuildOrStepResults (Some started_build_without_complete) UNKNOWN = UNKNOWN.
Proof.
  assert (¬ known_code (results_of started_build_without_complete)) as Hk.
  { intros (n & Hn & _). discriminate Hn. }
  split; [exact Hk|]. split; [discriminate|]. split; [reflexivity|].
  apply (in_progress_needs_complete_false
           started_build_without_complete UNKNOWN); [exact Hk | discriminate].
Defined.

(** The checks of section 8 of the specification, on builds. *)
Example known_codes_win :
  Forall
    (λ c, getBuildOrStepResults
            (Some (mkTypedBuild
                     (build_with (VNumber 7) (VNumber c) (VBoolean true)
                        (VNumber 1))
                     eq_refl))
            UNKNOWN = c)
    [SUCCESS; WARNINGS; FAILURE; SKIPPED; EXCEPTION; RETRY; CANCELLED].
Proof. repeat constructor. Qed.

Example started_and_not_complete_is_pending :
  getBuildOrStepResults
    (Some (mkTypedBuild
             (build_with (VNumber 7) VNull (VBoolean false) (VNumber 5))
             eq_refl))
    UNKNOWN = PENDING.
Proof. reflexivity. Qed.

Example not_started_is_unknown :
  getBuildOrStepResults
    (Some (mkTypedBuild
             (build_with (VNumber 7) VNull (VBoolean false) (VNumber 0))
             eq_refl))
    UNKNOWN = UNKNOWN.
Proof. reflexivity. Qed.

Example unrecognized_code_falls_through :
  getBuildOrStepResults
    (Some (mkTypedBuild
             (build_with (VNumber 7) (VNumber 999) (VBoolean true) (VNumber 1))
             eq_refl))
    UNKNOWN = UNKNOWN.
Proof. reflexivity. Qed.

Example pending_class_with_pulse :
  results2class (Some running_build) (Some "pulse") = "results_PENDING pulse" ∧
  results2class (Some running_build) None = "results_PENDING" ∧
  results2class (Some complete_build_marked_pending) (Some "pulse")
    = "results_PENDING pulse" ∧
  results2class (Some started_build_without_complete) (Some "pulse")
    = "results_UNKNOWN".
Proof. repeat split. Qed.

Example text_of_results :
  results2text (Some running_build) = Some "..." ∧
  results2text (Some complete_build_marked_pending) = Some "PENDING" ∧
  results2text (E := TypedBuild) None = Some "...".
Proof. repeat split. Qed.

(** A build made from a well-formed record is one the helpers are typed to
    receive. *)
Lemma construct_well_typed (h : heap) (raw : object) :
  well_formed h raw = true → well_typed (construct raw h).1 = true.
Proof.
  unfold well_formed. rewrite !andb_true_iff.
  intros [[[[[[[[[[[[[_ _] _] _] _] _] _] _] Hs] _] Hc] _] Hr] _].
  unfold well_typed, construct.
  destruct (update_holds_exactly raw unassigned h)
    as (_&_&_&_&_&_&->&_&->&_&->&_).
  destruct (get raw "results"), (get raw "complete"), (get raw "started_at");
    done.
Qed.

(** Each of the three observed fields matters: changing one of them alone
    changes the classification. *)
Example each_observed_field_matters :
  let classify results complete started_at :=
    getBuildOrStepResults
      (Some (mkTypedBuild
               (build_with (VNumber 7) (as_value results)
                  (VBoolean complete) (VNumber started_at))
               (build_with_typed _ _ _ _)))
      UNKNOWN in
  classify None false 5 = PENDING ∧
  classify (Some FAILURE) false 5 = FAILURE ∧
  classify None true 5 = UNKNOWN ∧
  classify None false 0 = UNKNOWN.
Proof. repeat split. Qed.

(** The update of section 8: a build made from [finished_raw] and then
    updated with [later_raw] holds the second record, with a new empty
    object for the [properties] it lacks. *)
Example second_update_replaces_first :
  let built := construct finished_raw one_empty_object in
  let updated := update later_raw built.1 built.2 in
  toObject updated.1 =
    [ ("buildid", VNumber 7); ("number", VNumber 3); ("builderid", VNumber 2);
      ("buildrequestid", VNull); ("workerid", VNumber 1);
      ("masterid", VNumber 1); ("started_at", VNumber 1700000000);
      ("complete_at", VNull); ("complete", VBoolean false);
      ("state_string", VString "building"); ("results", VNull);
      ("properties", VObject 1%nat) ] ∧
  updated.2 = [ []; [] ].
Proof. split; reflexivity. Qed.

(** When the record has no [properties], each call of [update] makes a new
    empty object: after a second call the field holds another reference
    than after the first (to an object that is empty as well). *)
Remark update_again_new_properties_object
    (r : object) (this : Build) (h : heap) :
  has_key r "properties" = false →
  let once := update r this h in
  let twice := update r once.1 once.2 in
  properties once.1 = VObject (length h) ∧
  properties twice.1 = VObject (S (length h)).
Proof.
  intros Hk once twice.
  destruct (update_holds_exactly r this h) as (_&_&_&_&_&_&_&_&_&_&_&H1).
  destruct (update_holds_exactly r once.1 once.2)
    as (_&_&_&_&_&_&_&_&_&_&_&H2).
  fold once in H1. fold twice in H2.
  rewrite (get_absent _ _ Hk) in H1, H2. cbn in H1, H2.
  destruct H1 as [H1 E1], H2 as [H2 _]. split; [done|].
  rewrite H2, E1, length_app. cbn. f_equal. lia.
Qed.

(** * Further properties *)

(** ** The classification *)

Lemma intToResult_inj (n m : Z) (s : string) :
  intToResult !! n = Some s → intToResult !! m = Some s → n = m.
Proof.
  rewrite !intToResult_lookup.
  repeat case_decide; intros Hn Hm; simplify_eq; done.
Qed.

Lemma intToColor_lookup (n : Z) :
  intToColor !! n =
    if decide (n = SUCCESS) then Some "#8d4"
    else if decide (n = WARNINGS) then Some "#fa3"
    else if decide (n = FAILURE) then Some "#e88"
    else if decide (n = SKIPPED) then Some "#AADDEE"
    else if decide (n = EXCEPTION) then Some "#c6c"
    else if decide (n = RETRY) then Some "#ecc"
    else if decide (n = CANCELLED) then Some "#ecc"
    else if decide (n = PENDING) then Some "#E7D100"
    else if decide (n = UNKNOWN) then Some "#EEE"
    else None.
Proof.
  unfold intToColor. cbn [list_to_map foldr fst snd uncurry].
  repeat (rewrite lookup_insert; case_decide; [by subst; rewrite decide_True|];
          rewrite decide_False by congruence).
  apply lookup_empty.
Qed.

Section Classification.
Context {E : Type} {entity : BuildOrStep E}.

(** X1. The fallback matters for an entity or it does not: either
    [getBuildOrStepResults] returns the fallback whatever it is, or it
    returns one key of [intToResult] that is the same for every fallback. *)
Theorem getBuildOrStepResults_fallback_or_key (buildOrStep : option E) :
  (∀ unknownResults,
     getBuildOrStepResults buildOrStep unknownResults = unknownResults) ∨
  (∃ r, r ∈ dom intToResult ∧
        ∀ unknownResults,
          getBuildOrStepResults buildOrStep unknownResults = r).
Proof.
  unfold getBuildOrStepResults. destruct buildOrStep as [e|]; [|by left].
  destruct (recognized (results_of e)) as [r|] eqn:Hr.
  - right. exists r. by apply recognized_Some in Hr as [_ ?].
  - destruct (_ && _); [|by left].
    right. exists PENDING. split; [|done]. apply intToResult_keys. set_solver.
Qed.

(** X2. With a fallback other than [PENDING], the classification is
    [PENDING] exactly for an entity whose [results] is [PENDING] itself, or
    whose [results] is no known code while [complete] is [false] and the
    start time is positive.  In particular a null entity is never
    [PENDING]. *)
Theorem getBuildOrStepResults_PENDING_iff
    (buildOrStep : option E) (unknownResults : Z) :
  unknownResults ≠ PENDING →
  getBuildOrStepResults buildOrStep unknownResults = PENDING ↔
  ∃ e, buildOrStep = Some e ∧
       (results_of e = Val PENDING ∨
        (¬ known_code (results_of e) ∧ complete_of e = Val false ∧
         0 < start_time (started_at_of e))).
Proof.
  intros Hfb. unfold getBuildOrStepResults.
  destruct buildOrStep as [e|]; [|split; [done|by intros (? & ? & _)]].
  destruct (recognized (results_of e)) as [r|] eqn:Hr.
  - apply recognized_Some in Hr as [Hr Hk]. split.
    + intros ->. eauto.
    + intros (e' & [= <-] & [Hp | [Hn _]]).
      * congruence.
      * destruct Hn. by exists r.
  - apply recognized_None in Hr. rewrite coalesce_start_time.
    destruct (is_false (complete_of e)) eqn:Hf.
    + apply is_false_true in Hf.
      destruct (start_time (started_at_of e) >? 0)%Z eqn:Hs; cbn.
      * split; [|done]. intros _. exists e. split; [done|]. right.
        split; [done|]. split; [done|]. apply Z.gtb_lt in Hs. lia.
      * split; [done|]. intros (e' & [= <-] & [Hp | (_ & _ & Hpos)]).
        -- destruct Hr. exists PENDING. split; [done|].
           apply intToResult_keys. set_solver.
        -- assert ((start_time (started_at_of e) >? 0)%Z = true)
             by (apply Z.gtb_lt; lia).
           congruence.
    + cbn. split; [done|]. intros (e' & [= <-] & [Hp | (_ & Hc & _)]).
      * destruct Hr. exists PENDING. split; [done|].
        apply intToResult_keys. set_solver.
      * apply is_false_true in Hc. congruence.
Qed.

(** X3. [results2text] shows the placeholder exactly when there is no
    known code to show: for a null entity and for [results] that is null,
    undefined or no key of the table.  No label of the table is the
    placeholder. *)
Theorem results2text_ellipsis_iff (objWithResults : option E) :
  results2text objWithResults = Some "..." ↔
  objWithResults = None ∨
  ∃ e, objWithResults = Some e ∧ ¬ known_code (results_of e).
Proof.
  unfold results2text. cbv zeta. destruct objWithResults as [e|].
  - destruct (recognized (results_of e)) as [r|] eqn:Hr.
    + apply recognized_Some in Hr as [Hr Hk]. split.
      * rewrite intToResult_lookup. repeat case_decide; discriminate.
      * intros [|(e' & [= <-] & Hn)]; [done|]. destruct Hn. by exists r.
    + apply recognized_None in Hr. split; [|done]. intros _. right. eauto.
  - split; [by left|done].
Qed.

(** X4. For an entity with a known code the two renderings agree: the
    class name without pulse is ["results_"] followed by the text of
    [results2text]. *)
Theorem results2class_of_results2text (e : E) :
  known_code (results_of e) →
  ∃ label,
    results2text (Some e) = Some label ∧
    results2class (Some e) None = "results_" ++ label.
Proof.
  intros (n & Hn & Hk).
  assert (recognized (results_of e) = Some n) as Hr
    by by apply recognized_Some.
  apply elem_of_dom in Hk as [label Hl]. exists label.
  unfold results2text, results2class, getBuildOrStepResults. cbv zeta.
  rewrite Hr, Hl. done.
Qed.

(** X5. The class name identifies the classification: two entities get the
    same class name (without pulse) exactly when they get the same
    classification, because no two codes share a label. *)
Theorem results2class_identifies_classification (e1 e2 : option E) :
  results2class e1 None = results2class e2 None ↔
  getBuildOrStepResults e1 UNKNOWN = getBuildOrStepResults e2 UNKNOWN.
Proof.
  pose proof (getBuildOrStepResults_UNKNOWN_key e1) as H1.
  pose proof (getBuildOrStepResults_UNKNOWN_key e2) as H2.
  apply elem_of_dom in H1 as [l1 H1]. apply elem_of_dom in H2 as [l2 H2].
  unfold results2class. cbv zeta. split.
  - rewrite H1, H2. unfold results_prefixed. intros Heq.
    apply (inj (String.app "results_")) in Heq. subst l2.
    by eapply intToResult_inj.
  - by intros ->.
Qed.

(** X6. Every code with a label has a colour and conversely, so the
    classification of every entity (with fallback [UNKNOWN]) has a colour
    in [intToColor]. *)
Theorem intToColor_covers_classification (buildOrStep : option E) :
  (∀ n, is_Some (intToColor !! n) ↔ is_Some (intToResult !! n)) ∧
  is_Some (intToColor !! getBuildOrStepResults buildOrStep UNKNOWN).
Proof.
  assert (Hdom : ∀ n, is_Some (intToColor !! n) ↔ is_Some (intToResult !! n)).
  { intros n. rewrite intToColor_lookup, intToResult_lookup.
    repeat case_decide; split; intros Hyp; try (by eauto); done. }
  split; [exact Hdom|]. apply Hdom, elem_of_dom.
  apply getBuildOrStepResults_UNKNOWN_key.
Qed.
End Classification.

Lemma getBuildOrStepResults_PENDING_iff_witness :
  UNKNOWN ≠ PENDING ∧
  (getBuildOrStepResults (Some running_build) UNKNOWN = PENDING ↔
   ∃ e, Some running_build = Some e ∧
        (results_of e = Val PENDING ∨
         (¬ known_code (results_of e) ∧ complete_of e = Val false ∧
          0 < start_time (started_at_of e)))).
Proof.
  split; [discriminate|].
  apply (getBuildOrStepResults_PENDING_iff (entity := TypedBuild_entity)
           (Some running_build) UNKNOWN).
  discriminate.
Defined.

Lemma results2class_of_results2text_witness :
  known_code (results_of failed_build) ∧
  ∃ label,
    results2text (Some failed_build) = Some label ∧
    results2class (Some failed_build) None = "results_" ++ label.
Proof.
  assert (known_code (results_of failed_build)) as Hk.
  { exists FAILURE. split; [reflexivity|]. apply intToResult_keys. set_solver. }
  split; [exact Hk|]. apply (results2class_of_results2text (entity := TypedBuild_entity)
           failed_build Hk).
Defined.

(** ** The Build class and its descriptor *)

Lemma update_of_toObject (b this : Build) (h : heap) :
  is_nullish (properties b) = false → update (toObject b) this h = (b, h).
Proof.
  intros Hp. unfold update, coalesce_new_object.
  change (get (toObject b) "properties") with (properties b).
  rewrite Hp. by destruct b.
Qed.

Lemma properties_after_update (r : object) (this : Build) (h : heap) :
  is_nullish (properties (update r this h).1) = false.
Proof.
  destruct (update_holds_exactly r this h) as (_&_&_&_&_&_&_&_&_&_&_&Hp).
  destruct (is_nullish (get r "properties")) eqn:Hn.
  - by destruct Hp as [-> _].
  - destruct Hp as [-> _]. exact Hn.
Qed.

(** X7. [update] undoes [toObject]: for a build whose [properties] is
    neither null nor undefined, [update] with the record that [toObject]
    gives restores, on any instance, exactly that build, and creates no
    object. *)
Theorem update_inverts_toObject (b this : Build) (h : heap) :
  is_nullish (properties b) = false →
  update (toObject b) this h = (b, h).
Proof. apply update_of_toObject. Qed.

Lemma update_inverts_toObject_witness :
  is_nullish (properties (the_build running_build)) = false ∧
  update (toObject (the_build running_build)) unassigned one_empty_object
  = (the_build running_build, one_empty_object).
Proof.
  split; [reflexivity|].
  apply (update_inverts_toObject (the_build running_build) unassigned
           one_empty_object).
  reflexivity.
Defined.

(** X8. Parsing is stable under serialisation: whatever the raw record
    holds, the build that the descriptor parses has a [properties] that is
    neither null nor undefined, and parsing what [toObject] gives for it
    yields the same build again without creating an object. *)
Theorem parse_toObject_stable
    (d : BuildDescriptor) (raw : object) (h : heap) :
  let parsed := parse d raw h in
  is_nullish (properties parsed.1) = false ∧
  parse d (toObject parsed.1) parsed.2 = parsed.
Proof.
  intros parsed. subst parsed. unfold parse, construct.
  pose proof (properties_after_update raw unassigned h) as Hp.
  split; [exact Hp|].
  rewrite (update_of_toObject _ unassigned _ Hp).
  by destruct (update raw unassigned h).
Qed.

(** X9. [update] reads the twelve tracked keys of the record and nothing
    else: two records that agree on them have the same effect, whatever
    other keys they carry. *)
Theorem update_reads_tracked_fields_only
    (r1 r2 : object) (this : Build) (h : heap) :
  (∀ k, k ∈ tracked_fields → get r1 k = get r2 k) →
  update r1 this h = update r2 this h.
Proof.
  intros Heq. unfold update.
  assert (∀ k, bool_decide (k ∈ tracked_fields) = true → get r1 k = get r2 k)
    as Hk
    by (intros k Hin; apply Heq; by apply bool_decide_eq_true in Hin).
  rewrite (Hk "buildid"), (Hk "number"), (Hk "builderid"),
    (Hk "buildrequestid"), (Hk "workerid"), (Hk "masterid"),
    (Hk "started_at"), (Hk "complete_at"), (Hk "complete"),
    (Hk "results"), (Hk "state_string"), (Hk "properties") by reflexivity.
  reflexivity.
Qed.

Lemma update_reads_tracked_fields_only_witness :
  (∀ k, k ∈ tracked_fields →
        get finished_raw_with_extra_key k = get finished_raw k) ∧
  get finished_raw_with_extra_key "locks_duration_s"
    ≠ get finished_raw "locks_duration_s" ∧
  update finished_raw_with_extra_key unassigned one_empty_object
  = update finished_raw unassigned one_empty_object.
Proof.
  assert (∀ k, k ∈ tracked_fields →
            get finished_raw_with_extra_key k = get finished_raw k) as Hk.
  { intros k Hin. apply tracked_field_cases in Hin.
    repeat (destruct Hin as [-> | Hin]; [reflexivity|]). by subst k. }
  split; [exact Hk|]. split; [discriminate|].
  apply (update_reads_tracked_fields_only finished_raw_with_extra_key
           finished_raw unassigned one_empty_object Hk).
Defined.

(** X10. The default for [properties] is not shared: when two records have
    no [properties] (or a null one), the builds filled from them one after
    the other hold two different references, each to an empty object of its
    own that did not exist before. *)
Theorem default_properties_not_shared
    (r1 r2 : object) (this1 this2 : Build) (h : heap) :
  is_nullish (get r1 "properties") = true →
  is_nullish (get r2 "properties") = true →
  let first := update r1 this1 h in
  let second := update r2 this2 first.2 in
  properties first.1 ≠ properties second.1 ∧
  ∃ l1 l2,
    properties first.1 = VObject l1 ∧ properties second.1 = VObject l2 ∧
    h !! l1 = None ∧ first.2 !! l2 = None ∧
    second.2 !! l1 = Some [] ∧ second.2 !! l2 = Some [].
Proof.
  intros Hn1 Hn2 first second.
  destruct (update_holds_exactly r1 this1 h) as (_&_&_&_&_&_&_&_&_&_&_&H1).
  destruct (update_holds_exactly r2 this2 first.2)
    as (_&_&_&_&_&_&_&_&_&_&_&H2).
  fold first in H1. fold second in H2. rewrite Hn1 in H1. rewrite Hn2 in H2.
  destruct H1 as [P1 E1], H2 as [P2 E2]. rewrite P1, P2, E2, E1.
  split.
  - rewrite length_app. cbn. intros [= Hl]. lia.
  - exists (length h), (length (h ++ [[]])).
    split; [done|]. split; [done|].
    split; [apply lookup_ge_None; lia|].
    split; [apply lookup_ge_None; lia|].
    split.
    + rewrite <- app_assoc. cbn [app].
      by rewrite (list_lookup_middle h [[]] [] (length h) eq_refl).
    + by rewrite (list_lookup_middle (h ++ [[]]) [] [] _ eq_refl).
Qed.

Lemma default_properties_not_shared_witness :
  is_nullish (get raw_without_properties "properties") = true ∧
  is_nullish (get later_raw "properties") = true ∧
  let first := update raw_without_properties unassigned one_empty_object in
  let second := update later_raw unassigned first.2 in
  properties first.1 ≠ properties second.1 ∧
  ∃ l1 l2,
    properties first.1 = VObject l1 ∧ properties second.1 = VObject l2 ∧
    one_empty_object !! l1 = None ∧ first.2 !! l2 = None ∧
    second.2 !! l1 = Some [] ∧ second.2 !! l2 = Some [].
Proof.
  split; [reflexivity|]. split; [reflexivity|].
  apply (default_properties_not_shared raw_without_properties later_raw
           unassigned unassigned one_empty_object); reflexivity.
Defined.

(** X11. On a well-formed record the constructor gives every field a value
    of the type the class declares for it; [properties] is an object of the
    heap, the one of the record or the new empty one. *)
Theorem construct_declared_types (h : heap) (raw : object) :
  well_formed h raw = true →
  declared_types (construct raw h).2 (construct raw h).1 = true.
Proof.
  unfold well_formed. rewrite !andb_true_iff.
  intros [[[[[[[[[[[[[_ _] H1] H2] H3] H4] H5] H6] H7] H8] H9] H10] H11] Hp].
  unfold declared_types, construct.
  destruct (update_holds_exactly raw unassigned h)
    as (->&->&->&->&->&->&->&->&->&->&->&Hu).
  rewrite H1, H2, H3, H4, H5, H6, H7, H8, H9, H10, H11. cbn [andb].
  destruct (has_key raw "properties") eqn:Hk; cbn in Hp.
  - destruct (get raw "properties") as [| | | | |l] eqn:Hg; try done.
    cbn in Hu. by destruct Hu as [-> ->].
  - rewrite (get_absent _ _ Hk) in Hu. cbn in Hu. destruct Hu as [-> ->].
    cbn. apply bool_decide_eq_true.
    by rewrite (list_lookup_middle h [] [] _ eq_refl).
Qed.

Lemma construct_declared_types_witness :
  well_formed one_empty_object raw_without_properties = true ∧
  declared_types (construct raw_without_properties one_empty_object).2
    (construct raw_without_properties one_empty_object).1 = true.
Proof.
  split; [reflexivity|].
  apply (construct_declared_types one_empty_object raw_without_properties).
  reflexivity.
Defined.

(** X12. From the wire to the display.  For a build made by the
    constructor from a raw record: a record with null [results],
    [complete] false and a positive [started_at] is shown as pending, with
    the pulse token and the placeholder text; a record whose [results] is a
    known code other than [PENDING] is shown with the label of that code and
    never with the pulse; a record with null [results] that is complete is
    shown as unknown. *)
Theorem parsed_build_display (raw : object) (h : heap) (b : TypedBuild) :
  the_build b = (construct raw h).1 →
  (get raw "results" = VNull → get raw "complete" = VBoolean false →
   (∃ t, get raw "started_at" = VNumber t ∧ 0 < t) →
   ∀ p, results2class (Some b) (Some p) = "results_PENDING " ++ p ∧
        results2text (Some b) = Some "...") ∧
  (∀ n label, get raw "results" = VNumber n →
     intToResult !! n = Some label → n ≠ PENDING →
     ∀ pulse, results2class (Some b) pulse = "results_" ++ label ∧
              results2text (Some b) = Some label) ∧
  (get raw "results" = VNull → get raw "complete" = VBoolean true →
   ∀ pulse, results2class (Some b) pulse = "results_UNKNOWN" ∧
            results2text (Some b) = Some "...").
Proof.
  intros Hb.
  destruct (update_holds_exactly raw unassigned h)
    as (_&_&_&_&_&_&Hs&_&Hc&_&Hr&_).
  fold (construct raw h) in Hs, Hc, Hr. rewrite <- Hb in Hs, Hc, Hr.
  unfold results2class, results2text, getBuildOrStepResults. cbv zeta.
  cbv [results_of BuildOrStep_results TypedBuild_entity TypedBuild_results
       complete_of started_at_of].
  rewrite Hs, Hc, Hr. split; [|split].
  - intros -> -> (t & -> & Ht) p.
    cbn [as_number as_boolean recognized strict_ne_null andb is_false
         coalesce].
    assert ((t >? 0)%Z = true) as -> by (apply Z.gtb_lt; lia). done.
  - intros n label -> Hl Hn pulse. cbn [as_number].
    assert (recognized (Val n) = Some n) as ->.
    { apply recognized_Some. split; [done|]. by apply elem_of_dom. }
    rewrite Hl. split; [|done]. destruct pulse as [p|]; [|done].
    by destruct (Z.eqb_spec n PENDING).
  - intros -> -> pulse.
    cbn [as_number as_boolean recognized strict_ne_null andb is_false].
    by destruct pulse.
Qed.

Lemma parsed_build_display_witness :
  let b := mkTypedBuild (construct finished_raw one_empty_object).1 eq_refl in
  the_build b = (construct finished_raw one_empty_object).1 ∧
  (∀ pulse, results2class (Some b) pulse = "results_" ++ "SUCCESS" ∧
            results2text (Some b) = Some "SUCCESS").
Proof.
  intros b. split; [reflexivity|].
  destruct (parsed_build_display finished_raw one_empty_object b eq_refl)
    as (_ & Hknown & _).
  apply (Hknown SUCCESS "SUCCESS"); [reflexivity | reflexivity | discriminate].
Defined.

(** X13. [update] leaves the heap as it found it but for the object it may
    create: every object that was in the heap is still there, unchanged
    (the [properties] object of the record included), and the heap grows
    by one object when the record has no [properties] and not at all
    otherwise. *)
Theorem update_preserves_heap (r : object) (this : Build) (h : heap) :
  (∀ l o, h !! l = Some o → (update r this h).2 !! l = Some o) ∧
  length (update r this h).2 =
    if is_nullish (get r "properties") then S (length h) else length h.
Proof.
  destruct (update_holds_exactly r this h) as (_&_&_&_&_&_&_&_&_&_&_&Hp).
  destruct (is_nullish (get r "properties")); destruct Hp as [_ ->].
  - split.
    + intros l o Hl. by apply lookup_app_l_Some.
    + rewrite length_app. cbn. lia.
  - done.
Qed.
